(** * A shallow embedding of the TODO List API (backend/app/main.py)

    The service is a FastAPI application over two SQLAlchemy tables
    ([users], [todos]) stored in SQLite.  The embedding keeps the shape of
    the source: every endpoint is a function from the database state to a
    result (a value or a raised exception) and a new database state; the
    queries are written as the filters the source builds; the statements
    that [db.commit()] flushes are written as the SQL the ORM emits.

    Python [str] values are represented by their UTF-8 byte sequence (Rocq's
    [string]); [str.encode()] is then the identity on the bytes, and equality
    of two Python strings is equality of their encodings. *)

From Stdlib Require Import ZArith String Ascii List.
From stdpp Require Import base tactics option list numbers strings.

(** ** hashlib.sha256

    [get_password_hash] calls [hashlib.sha256(...).hexdigest()].  The digest
    is fixed by FIPS 180-4; it is written here on 32-bit words held in [Z],
    with the wrap-around of every addition explicit.  The round constants
    are computed from their definition (fractional parts of the square and
    cube roots of the first primes) and checked below against published
    values. *)
Module SHA256.
Local Open Scope Z_scope.

Definition wrap32 (x : Z) : Z := x mod 2 ^ 32.
Definition add32 (x y : Z) : Z := wrap32 (x + y).
Definition rotr (n x : Z) : Z :=
  Z.lor (Z.shiftr x n) (wrap32 (Z.shiftl x (32 - n))).
Definition not32 (x : Z) : Z := Z.lxor x (2 ^ 32 - 1).

Definition Ch (x y z : Z) : Z := Z.lxor (Z.land x y) (Z.land (not32 x) z).
Definition Maj (x y z : Z) : Z :=
  Z.lxor (Z.lxor (Z.land x y) (Z.land x z)) (Z.land y z).
Definition Sigma0 (x : Z) : Z :=
  Z.lxor (Z.lxor (rotr 2 x) (rotr 13 x)) (rotr 22 x).
Definition Sigma1 (x : Z) : Z :=
  Z.lxor (Z.lxor (rotr 6 x) (rotr 11 x)) (rotr 25 x).
Definition sigma0 (x : Z) : Z :=
  Z.lxor (Z.lxor (rotr 7 x) (rotr 18 x)) (Z.shiftr x 3).
Definition sigma1 (x : Z) : Z :=
  Z.lxor (Z.lxor (rotr 17 x) (rotr 19 x)) (Z.shiftr x 10).

(** Trial division, enough to enumerate the first 64 primes. *)
Definition is_prime (p : Z) : bool :=
  (2 <=? p) &&
  forallb (fun d => negb (p mod d =? 0))
          (List.map Z.of_nat (List.seq 2 (Z.to_nat p - 2))).

Definition primes64 : list Z :=
  Eval vm_compute in
    List.filter is_prime (List.map Z.of_nat (List.seq 2 310)).

(** Integer cube root by bisection on the bits of the result. *)
Fixpoint icbrt_bits (bits : nat) (n r : Z) : Z :=
  match bits with
  | O => r
  | S b =>
      let c := r + 2 ^ Z.of_nat b in
      icbrt_bits b n (if c * c * c <=? n then c else r)
  end.
Definition icbrt (n : Z) : Z := icbrt_bits 40 n 0.

(** Initial hash value: 32 fractional bits of the square roots of the first
    eight primes. *)
Definition H0 : list Z :=
  Eval vm_compute in
    List.map (fun p => wrap32 (Z.sqrt (p * 2 ^ 64))) (List.firstn 8 primes64).

(** Round constants: 32 fractional bits of the cube roots of the first 64
    primes. *)
Definition K : list Z :=
  Eval vm_compute in List.map (fun p => wrap32 (icbrt (p * 2 ^ 96))) primes64.

(** Padding: a single 1 bit, zeros up to 56 mod 64 bytes, then the bit
    length as a 64-bit big-endian integer. *)
Fixpoint be_bytes (n : nat) (x : Z) : list Z :=
  match n with
  | O => []
  | S n' => Z.shiftr x (8 * Z.of_nat n') mod 256 :: be_bytes n' x
  end.

Definition pad (msg : list Z) : list Z :=
  let len := Z.of_nat (length msg) in
  let zeros := Z.to_nat ((55 - len) mod 64) in
  msg ++ [128] ++ List.repeat 0 zeros ++ be_bytes 8 (8 * len).

Fixpoint be_words (n : nat) (bytes : list Z) : list Z :=
  match n with
  | O => []
  | S n' =>
      match bytes with
      | b0 :: b1 :: b2 :: b3 :: rest =>
          (((b0 * 256 + b1) * 256 + b2) * 256 + b3) :: be_words n' rest
      | _ => []
      end
  end.

(** Message schedule: W_t for t in 16..63 from the sixteen words of a
    block. *)
Fixpoint schedule (n : nat) (W : list Z) : list Z :=
  match n with
  | O => W
  | S n' =>
      let t := length W in
      let w :=
        add32 (add32 (sigma1 (List.nth (t - 2) W 0)) (List.nth (t - 7) W 0))
              (add32 (sigma0 (List.nth (t - 15) W 0)) (List.nth (t - 16) W 0)) in
      schedule n' (W ++ [w])
  end.

Record regs := Regs { ra : Z; rb : Z; rc : Z; rd : Z;
                      re : Z; rf : Z; rg : Z; rh : Z }.

Definition round (s : regs) (kw : Z * Z) : regs :=
  let T1 := add32 (add32 (add32 (rh s) (Sigma1 (re s)))
                         (add32 (Ch (re s) (rf s) (rg s)) (fst kw))) (snd kw) in
  let T2 := add32 (Sigma0 (ra s)) (Maj (ra s) (rb s) (rc s)) in
  Regs (add32 T1 T2) (ra s) (rb s) (rc s) (add32 (rd s) T1) (re s) (rf s) (rg s).

Definition regs_of (h : list Z) : regs :=
  let g i := List.nth i h 0 in
  Regs (g 0%nat) (g 1%nat) (g 2%nat) (g 3%nat) (g 4%nat) (g 5%nat) (g 6%nat) (g 7%nat).

Definition list_of (s : regs) : list Z :=
  [ra s; rb s; rc s; rd s; re s; rf s; rg s; rh s].

Definition compress (h : list Z) (block : list Z) : list Z :=
  let W := schedule 48 (be_words 16 block) in
  let s := List.fold_left round (List.combine K W) (regs_of h) in
  List.map (fun p => add32 (fst p) (snd p)) (List.combine h (list_of s)).

Fixpoint blocks (n : nat) (h : list Z) (bytes : list Z) : list Z :=
  match n with
  | O => h
  | S n' => blocks n' (compress h (List.firstn 64 bytes)) (List.skipn 64 bytes)
  end.

Definition digest (msg : list Z) : list Z :=
  let p := pad msg in
  List.flat_map (be_bytes 4) (blocks (length p / 64) H0 p).

Definition hex_digit (d : Z) : ascii :=
  ascii_of_nat (Z.to_nat (if d <? 10 then 48 + d else 87 + d)).

Definition hex (bytes : list Z) : string :=
  List.fold_right
    (fun b s => String (hex_digit (b / 16)) (String (hex_digit (b mod 16)) s))
    EmptyString bytes.

End SHA256.

(** [str.encode()]: the bytes of the string, as integers. *)
Fixpoint encode (s : string) : list Z :=
  match s with
  | EmptyString => []
  | String c s' => Z.of_nat (nat_of_ascii c) :: encode s'
  end.

Definition sha256_hexdigest (data : list Z) : string :=
  SHA256.hex (SHA256.digest data).

(** ** Helper functions (main.py, lines 95-99) *)

Definition get_password_hash (password : string) : string :=
  sha256_hexdigest (encode password).

Definition verify_password (plain_password hashed_password : string) : bool :=
  (get_password_hash plain_password =? hashed_password)%string.

Local Open Scope string_scope.
Local Open Scope Z_scope.
Local Open Scope list_scope.

(** ** Pydantic models and table rows (main.py, lines 55-88)

    Each class is a record in a module of its name, so that the fields keep
    the names they have in the source. *)

(** The values a model field or a column can hold. *)
Inductive Value :=
| VStr (s : string)
| VBool (b : bool)
| VInt (n : Z).

Module UserCreate.
Record t := mk { username : string; password : string }.
End UserCreate.

Module User.
Record t := mk { username : string }.
End User.

Module TodoCreate.
Record t := mk { title : string; completed : bool }.

(** [completed: bool = False]: the value taken when the request body has
    no such field. *)
Definition completed_default : bool := false.

Definition parse (title : string) (completed : option bool) : t :=
  mk title (default completed_default completed).

(** [todo.dict()]: the fields of the model, in declaration order. *)
Definition dict (todo : t) : list (string * Value) :=
  [("title", VStr (title todo)); ("completed", VBool (completed todo))].
End TodoCreate.

Module Todo.
Record t := mk { id : Z; title : string; completed : bool; owner : string }.
End Todo.

Module HTTPBasicCredentials.
Record t := mk { username : string; password : string }.
End HTTPBasicCredentials.

Module UserDB.
Record t := mk { id : Z; username : string; hashed_password : string }.
End UserDB.

Module TodoDB.
Record t := mk { id : Z; title : string; completed : bool; owner : string }.

(** [setattr(obj, key, value)] on a mapped object.  A key that names no
    column, or a value of another type than the column's, leaves the
    columns as they are; [TodoCreate.dict] produces neither. *)
Definition setattr (obj : t) (key : string) (value : Value) : t :=
  if (key =? "id")%string then
    match value with VInt n => mk n (title obj) (completed obj) (owner obj) | _ => obj end
  else if (key =? "title")%string then
    match value with VStr s => mk (id obj) s (completed obj) (owner obj) | _ => obj end
  else if (key =? "completed")%string then
    match value with VBool b => mk (id obj) (title obj) b (owner obj) | _ => obj end
  else if (key =? "owner")%string then
    match value with VStr s => mk (id obj) (title obj) (completed obj) s | _ => obj end
  else obj.

(** [for key, value in items: setattr(obj, key, value)] *)
Definition setattrs (obj : t) (items : list (string * Value)) : t :=
  fold_left (fun o kv => setattr o (fst kv) (snd kv)) items obj.

(** An object no attribute of which has been assigned yet; the
    placeholders stand for Python's [None]. *)
Definition unset : t := mk 0 "" false "".

(** [TodoDB] called with keyword arguments: the declarative constructor
    assigns every keyword argument with [setattr]. *)
Definition init (kwargs : list (string * Value)) : t := setattrs unset kwargs.
End TodoDB.

(** [response_model=User] and [response_model=Todo] with
    [from_attributes = True]: the response is read off the attributes of the
    returned object. *)
Definition User_from_attributes (u : UserDB.t) : User.t :=
  User.mk (UserDB.username u).

Definition Todo_from_attributes (r : TodoDB.t) : Todo.t :=
  Todo.mk (TodoDB.id r) (TodoDB.title r) (TodoDB.completed r) (TodoDB.owner r).

(** ** The database (main.py, lines 48-66 and 90-92)

    A table is the list of its rows in rowid order.  Both [id] columns are
    INTEGER PRIMARY KEY columns of SQLite, hence aliases of the rowid. *)
Record Database := { users : list UserDB.t; todos : list TodoDB.t }.

(** [drop_all] followed by [create_all]: the service starts on empty
    tables. *)
Definition startup : Database := {| users := []; todos := [] |}.

(** The rowid SQLite gives to a row inserted without one: 1 in an empty
    table, otherwise one more than the largest rowid in use.  (The 64-bit
    bound of rowids is not modelled; ids are only ever assigned here,
    counting from 1.) *)
Definition next_rowid (ids : list Z) : Z :=
  match ids with
  | [] => 1
  | i :: rest => 1 + fold_right Z.max i rest
  end.

(** ** Exceptions, results and handlers *)

Inductive Exception :=
| HTTPException (status_code : Z) (detail : string) (headers : list (string * string))
| InvalidRequestError.

Inductive Result (A : Type) :=
| Return (a : A)
| Raise (e : Exception).
Arguments Return {A} a.
Arguments Raise {A} e.

(** A handler runs against the database of its session and leaves a
    database behind. *)
Definition Handler (A : Type) : Type := Database -> Result A * Database.

Definition ret {A} (a : A) : Handler A := fun db => (Return a, db).
Definition raise {A} (e : Exception) : Handler A := fun db => (Raise e, db).
Definition bind {A B} (m : Handler A) (k : A -> Handler B) : Handler B :=
  fun db =>
    match m db with
    | (Return a, db') => k a db'
    | (Raise e, db') => (Raise e, db')
    end.

Notation "'do' x <- m ; k" := (bind m (fun x => k))
  (at level 10, x name, m at level 100, k at level 200).

Definition HTTP_400_BAD_REQUEST : Z := 400.
Definition HTTP_401_UNAUTHORIZED : Z := 401.
Definition HTTP_404_NOT_FOUND : Z := 404.
Definition HTTP_200_OK : Z := 200.
Definition HTTP_201_CREATED : Z := 201.
Definition HTTP_204_NO_CONTENT : Z := 204.
Definition HTTP_500_INTERNAL_SERVER_ERROR : Z := 500.

(** The three exceptions the handlers raise; the specification calls them
    Unauthorized, Conflict and NotFound. *)
Definition Unauthorized : Exception :=
  HTTPException HTTP_401_UNAUTHORIZED "Incorrect username or password"
                [("WWW-Authenticate", "Basic")].
Definition Conflict : Exception :=
  HTTPException HTTP_400_BAD_REQUEST "Username already registered" [].
Definition NotFound : Exception :=
  HTTPException HTTP_404_NOT_FOUND "Todo not found" [].

(** ** Session operations *)

(** [db.query(UserDB).filter(UserDB.username == username).first()]: the
    row found in a given database, and the query as a session operation. *)
Definition first_user (username : string) (db : Database) : option UserDB.t :=
  head (filter (fun u => UserDB.username u = username) (users db)).

Definition query_user (username : string) : Handler (option UserDB.t) :=
  fun db => (Return (first_user username db), db).

(** [db.query(TodoDB).filter(TodoDB.id == todo_id)
       .filter(TodoDB.owner == current_user).first()].  The path parameter
    is a Python [int] and is compared as an integer; the 64-bit range of the
    values the SQLite driver binds is not modelled. *)
Definition first_todo (todo_id : Z) (current_user : string) (db : Database)
  : option TodoDB.t :=
  head (filter (fun r => TodoDB.owner r = current_user)
               (filter (fun r => TodoDB.id r = todo_id) (todos db))).

Definition query_todo (todo_id : Z) (current_user : string)
  : Handler (option TodoDB.t) :=
  fun db => (Return (first_todo todo_id current_user db), db).

(** [db.query(TodoDB).filter(TodoDB.owner == current_user).all()] *)
Definition query_todos (current_user : string) : Handler (list TodoDB.t) :=
  fun db => (Return (filter (fun r => TodoDB.owner r = current_user) (todos db)), db).

(** [db.add(db_user); db.commit()] for a new [UserDB(username=...,
    hashed_password=...)]: INSERT INTO users, the rowid assigned by SQLite. *)
Definition insert_user (username hashed_password : string) : Handler UserDB.t :=
  fun db =>
    let row := UserDB.mk (next_rowid (UserDB.id <$> users db)) username hashed_password in
    (Return row, {| users := users db ++ [row]; todos := todos db |}).

(** [db.add(db_todo); db.commit()] for a new object: INSERT INTO todos with
    the attributes of the object, the rowid assigned by SQLite. *)
Definition insert_todo (obj : TodoDB.t) : Handler TodoDB.t :=
  fun db =>
    let row := TodoDB.mk (next_rowid (TodoDB.id <$> todos db))
                         (TodoDB.title obj) (TodoDB.completed obj) (TodoDB.owner obj) in
    (Return row, {| users := users db; todos := todos db ++ [row] |}).

(** [db.commit()] after attributes of a loaded object were assigned:
    UPDATE todos SET key = value, ... WHERE todos.id = pk. *)
Definition update_todo_row (pk : Z) (items : list (string * Value)) : Handler unit :=
  fun db =>
    (Return (),
     {| users := users db;
        todos := (fun r => if decide (TodoDB.id r = pk)
                           then TodoDB.setattrs r items else r) <$> todos db |}).

(** [db.delete(db_todo); db.commit()]: DELETE FROM todos WHERE todos.id = pk. *)
Definition delete_todo_row (pk : Z) : Handler unit :=
  fun db =>
    (Return (),
     {| users := users db;
        todos := filter (fun r => TodoDB.id r <> pk) (todos db) |}).

(** [db.refresh(obj)]: the row is read again by its primary key;
    [InvalidRequestError] when it is no longer there. *)
Definition refresh_user (obj : UserDB.t) : Handler UserDB.t :=
  fun db =>
    match head (filter (fun u => UserDB.id u = UserDB.id obj) (users db)) with
    | Some row => (Return row, db)
    | None => (Raise InvalidRequestError, db)
    end.

Definition refresh_todo (obj : TodoDB.t) : Handler TodoDB.t :=
  fun db =>
    match head (filter (fun r => TodoDB.id r = TodoDB.id obj) (todos db)) with
    | Some row => (Return row, db)
    | None => (Raise InvalidRequestError, db)
    end.

(** ** The dependency and the endpoints (main.py, lines 109-339) *)

Definition get_current_user (credentials : HTTPBasicCredentials.t) : Handler string :=
  do user <- query_user (HTTPBasicCredentials.username credentials);
  match user with
  | None => raise Unauthorized
  | Some user =>
      if negb (verify_password (HTTPBasicCredentials.password credentials)
                               (UserDB.hashed_password user))
      then raise Unauthorized
      else ret (UserDB.username user)
  end.

Definition create_user (user : UserCreate.t) : Handler UserDB.t :=
  do db_user <- query_user (UserCreate.username user);
  match db_user with
  | Some _ => raise Conflict
  | None =>
      let hashed_password := get_password_hash (UserCreate.password user) in
      do db_user <- insert_user (UserCreate.username user) hashed_password;
      refresh_user db_user
  end.

(** [index()]: a constant dictionary; of it the message and the version are
    kept, the overview of the endpoints is not. *)
Definition index : Handler (string * string) :=
  ret ("Welcome to TODO API", "1.0.0").

Definition read_users_me (current_user : string) : Handler User.t :=
  ret (User.mk current_user).

Definition read_todos (current_user : string) : Handler (list TodoDB.t) :=
  query_todos current_user.

Definition read_todo (todo_id : Z) (current_user : string) : Handler TodoDB.t :=
  do todo <- query_todo todo_id current_user;
  match todo with
  | None => raise NotFound
  | Some todo => ret todo
  end.

Definition create_todo (todo : TodoCreate.t) (current_user : string) : Handler TodoDB.t :=
  let db_todo := TodoDB.init (TodoCreate.dict todo ++ [("owner", VStr current_user)]) in
  do db_todo <- insert_todo db_todo;
  refresh_todo db_todo.

Definition update_todo (todo_id : Z) (todo : TodoCreate.t) (current_user : string)
  : Handler TodoDB.t :=
  do db_todo <- query_todo todo_id current_user;
  match db_todo with
  | None => raise NotFound
  | Some db_todo =>
      do _ <- update_todo_row (TodoDB.id db_todo) (TodoCreate.dict todo);
      refresh_todo db_todo
  end.

Definition delete_todo (todo_id : Z) (current_user : string) : Handler unit :=
  do db_todo <- query_todo todo_id current_user;
  match db_todo with
  | None => raise NotFound
  | Some db_todo => delete_todo_row (TodoDB.id db_todo)
  end.

(** ** Routing (the [@app] decorators)

    A request names a route with its path parameter, its body and, on the
    protected routes, the credentials of HTTP Basic authentication.
    [Depends(get_current_user)] runs the dependency first and hands its
    result to the endpoint; an exception of the dependency is the response. *)
Inductive Request :=
| POST_users (user : UserCreate.t)
| GET_users_me (credentials : HTTPBasicCredentials.t)
| GET_todos (credentials : HTTPBasicCredentials.t)
| GET_todo (credentials : HTTPBasicCredentials.t) (todo_id : Z)
| POST_todos (credentials : HTTPBasicCredentials.t) (todo : TodoCreate.t)
| PUT_todo (credentials : HTTPBasicCredentials.t) (todo_id : Z) (todo : TodoCreate.t)
| DELETE_todo (credentials : HTTPBasicCredentials.t) (todo_id : Z)
| GET_index.

Inductive Content :=
| JUser (u : User.t)
| JTodo (t : Todo.t)
| JTodos (l : list Todo.t)
| JEmpty
| JDetail (detail : string)
| JIndex (message version : string).

Record Response := { status_code : Z; content : Content }.

Definition Depends {A B} (dependency : Handler A) (endpoint : A -> Handler B)
  : Handler B := bind dependency endpoint.

Definition respond {A} (success : Z) (render : A -> Content) (h : Handler A)
  : Database -> Response * Database :=
  fun db =>
    match h db with
    | (Return a, db') => ({| status_code := success; content := render a |}, db')
    | (Raise (HTTPException code detail _), db') =>
        ({| status_code := code; content := JDetail detail |}, db')
    | (Raise InvalidRequestError, db') =>
        ({| status_code := HTTP_500_INTERNAL_SERVER_ERROR;
            content := JDetail "Internal Server Error" |}, db')
    end.

Definition handle (r : Request) : Database -> Response * Database :=
  match r with
  | POST_users user =>
      respond HTTP_201_CREATED (fun u => JUser (User_from_attributes u))
              (create_user user)
  | GET_users_me credentials =>
      respond HTTP_200_OK JUser
              (Depends (get_current_user credentials) read_users_me)
  | GET_todos credentials =>
      respond HTTP_200_OK (fun l => JTodos (Todo_from_attributes <$> l))
              (Depends (get_current_user credentials) read_todos)
  | GET_todo credentials todo_id =>
      respond HTTP_200_OK (fun r => JTodo (Todo_from_attributes r))
              (Depends (get_current_user credentials) (read_todo todo_id))
  | POST_todos credentials todo =>
      respond HTTP_201_CREATED (fun r => JTodo (Todo_from_attributes r))
              (Depends (get_current_user credentials) (create_todo todo))
  | PUT_todo credentials todo_id todo =>
      respond HTTP_200_OK (fun r => JTodo (Todo_from_attributes r))
              (Depends (get_current_user credentials) (update_todo todo_id todo))
  | DELETE_todo credentials todo_id =>
      respond HTTP_204_NO_CONTENT (fun _ => JEmpty)
              (Depends (get_current_user credentials) (delete_todo todo_id))
  | GET_index =>
      respond HTTP_200_OK (fun mv => JIndex (fst mv) (snd mv)) index
  end.

(** The responses to a sequence of requests served one after another, and
    the database they leave. *)
Fixpoint serve (requests : list Request) (db : Database)
  : list Response * Database :=
  match requests with
  | [] => ([], db)
  | r :: rest =>
      let (response, db') := handle r db in
      let (responses, db'') := serve rest db' in
      (response :: responses, db'')
  end.

(** The states the running service can be in. *)
Inductive reachable : Database -> Prop :=
| reachable_startup : reachable startup
| reachable_handle r db : reachable db -> reachable (snd (handle r db)).

(** What the primary keys and the UNIQUE index on [users.username]
    guarantee of every stored state. *)
Definition wf (db : Database) : Prop :=
  NoDup (TodoDB.id <$> todos db) /\
  NoDup (UserDB.id <$> users db) /\
  NoDup (UserDB.username <$> users db).

(** The stored digest of a username, as the authentication query finds it. *)
Definition stored_digest (username : string) (db : Database) : option string :=
  UserDB.hashed_password <$> first_user username db.

(** The row that a successful [create_user] stores, and the row that
    [create_todo] stores: the names under which the properties below refer
    to them. *)
Definition new_user (user : UserCreate.t) (db : Database) : UserDB.t :=
  UserDB.mk (next_rowid (UserDB.id <$> users db)) (UserCreate.username user)
            (get_password_hash (UserCreate.password user)).

Definition new_todo (todo : TodoCreate.t) (current_user : string) (db : Database)
  : TodoDB.t :=
  TodoDB.mk (next_rowid (TodoDB.id <$> todos db)) (TodoCreate.title todo)
            (TodoCreate.completed todo) current_user.

(** The todos table after UPDATE ... WHERE id = pk with the fields of
    [todo]. *)
Definition updated_todos (pk : Z) (todo : TodoCreate.t) (db : Database)
  : list TodoDB.t :=
  (fun r => if decide (TodoDB.id r = pk)
            then TodoDB.setattrs r (TodoCreate.dict todo) else r) <$> todos db.

(** ** A concrete run

    Two users register and each stores a todo; the properties below are
    exercised on the database this leaves. *)
Definition alice : HTTPBasicCredentials.t := HTTPBasicCredentials.mk "alice" "pw1".
Definition bob : HTTPBasicCredentials.t := HTTPBasicCredentials.mk "bob" "pw2".

Definition example_requests : list Request :=
  [ POST_users (UserCreate.mk "alice" "pw1");
    POST_users (UserCreate.mk "bob" "pw2");
    POST_todos alice (TodoCreate.parse "buy milk" None);
    POST_todos bob (TodoCreate.mk "walk the dog" true) ].

Definition example_db : Database :=
  Eval vm_compute in snd (serve example_requests startup).

Definition buy_milk : TodoDB.t := TodoDB.mk 1 "buy milk" false "alice".

(** ** Routes as the decorators declare them *)

(** The credentials a request presents; the routes of registration and of
    the welcome page take none. *)
Definition credentials_of (r : Request) : option HTTPBasicCredentials.t :=
  match r with
  | POST_users _ | GET_index => None
  | GET_users_me c | GET_todos c | GET_todo c _ | POST_todos c _
  | PUT_todo c _ _ | DELETE_todo c _ => Some c
  end.

(** [@app.get], [@app.post], [@app.put], [@app.delete]. *)
Definition method (r : Request) : string :=
  match r with
  | POST_users _ | POST_todos _ _ => "POST"
  | GET_users_me _ | GET_todos _ | GET_todo _ _ | GET_index => "GET"
  | PUT_todo _ _ _ => "PUT"
  | DELETE_todo _ _ => "DELETE"
  end.


(** The characters of [hexdigest()]. *)
Definition hex_alphabet : list ascii := list_ascii_of_string "0123456789abcdef".

(** * Properties *)

(** ** First match of a query *)

Section first_match.
Context {A : Type} (P : A -> Prop) `{!forall x, Decision (P x)}.

Lemma first_None (l : list A) :
  head (filter P l) = None <-> forall x, x ∈ l -> ~ P x.
Proof.
  rewrite head_None. split.
  - intros Hnil x Hx HP. by eapply filter_nil_not_elem_of.
  - intros Hno. induction l as [|y l IH]; [done|].
    rewrite filter_cons_False.
    + apply IH. intros x Hx. apply Hno. by right.
    + apply Hno. by left.
Qed.

Lemma first_Some (l : list A) (x : A) :
  head (filter P l) = Some x -> x ∈ l /\ P x.
Proof.
  intros Hx%head_Some_elem_of. apply list_elem_of_filter in Hx. tauto.
Qed.

Lemma first_snoc_fresh (l : list A) (x : A) :
  (forall y, y ∈ l -> ~ P y) -> P x -> head (filter P (l ++ [x])) = Some x.
Proof.
  intros Hno HP. apply first_None, head_None in Hno.
  rewrite filter_app, Hno. simpl. by rewrite filter_cons_True.
Qed.

Lemma first_snoc_found (l : list A) (x y : A) :
  head (filter P l) = Some y -> head (filter P (l ++ [x])) = Some y.
Proof.
  intros Hy. rewrite filter_app. apply head_app_Some. by left.
Qed.

Lemma first_is_Some (l : list A) (x : A) :
  x ∈ l -> P x -> is_Some (head (filter P l)).
Proof.
  intros Hx HP. destruct (head (filter P l)) eqn:E; [by eexists|].
  exfalso. rewrite first_None in E. by eapply E.
Qed.
End first_match.

(** A key without duplicates selects its row. *)
Lemma key_inj {A K : Type} (f : A -> K) (l : list A) (x y : A) :
  NoDup (f <$> l) -> x ∈ l -> y ∈ l -> f x = f y -> x = y.
Proof.
  induction l as [|z l IH]; intros Hnd Hx Hy Hf; [by apply elem_of_nil in Hx|].
  rewrite fmap_cons in Hnd. apply NoDup_cons in Hnd as [Hz Hnd].
  apply elem_of_cons in Hx as [->|Hx]; apply elem_of_cons in Hy as [->|Hy].
  - done.
  - exfalso. apply Hz. rewrite Hf. by apply list_elem_of_fmap_2.
  - exfalso. apply Hz. rewrite <- Hf. by apply list_elem_of_fmap_2.
  - by apply IH.
Qed.

Lemma first_by_key {A K : Type} `{EqDecision K} (f : A -> K) (l : list A) (x : A) :
  NoDup (f <$> l) -> x ∈ l -> head (filter (fun y => f y = f x) l) = Some x.
Proof.
  intros Hnd Hx.
  destruct (first_is_Some (fun y => f y = f x) l x Hx eq_refl) as [y Hy].
  rewrite Hy. f_equal.
  apply first_Some in Hy as [Hyl Hf]. by eapply key_inj.
Qed.

(** ** Fresh row identifiers *)

Lemma fold_max_ge (i : Z) (rest : list Z) :
  i <= fold_right Z.max i rest /\ forall j, j ∈ rest -> j <= fold_right Z.max i rest.
Proof.
  induction rest as [|k rest [IH1 IH2]]; simpl.
  - split; [lia|]. intros j Hj. by apply elem_of_nil in Hj.
  - split; [lia|]. intros j [->|Hj]%elem_of_cons; [lia|].
    specialize (IH2 j Hj). lia.
Qed.

Lemma next_rowid_gt (ids : list Z) (i : Z) : i ∈ ids -> i < next_rowid ids.
Proof.
  destruct ids as [|k rest]; [intros H; by apply elem_of_nil in H|].
  intros Hi. unfold next_rowid. destruct (fold_max_ge k rest) as [H1 H2].
  apply elem_of_cons in Hi as [->|Hi]; [lia|]. specialize (H2 i Hi). lia.
Qed.

Lemma next_rowid_fresh (ids : list Z) : next_rowid ids ∉ ids.
Proof. intros H%next_rowid_gt. lia. Qed.

(** ** The digest function against published test vectors *)

Example sha256_empty :
  sha256_hexdigest (encode "") =
  "e3b0c44298fc1c149afbf4c8996fb92427ae41e4649b934ca495991b7852b855".
Proof. vm_compute. reflexivity. Qed.

Example sha256_abc :
  sha256_hexdigest (encode "abc") =
  "ba7816bf8f01cfea414140de5dae2223b00361a396177a9cb410ff61f20015ad".
Proof. vm_compute. reflexivity. Qed.

Example sha256_two_blocks :
  get_password_hash "aaaaaaaaaaaaaaaaaaaaaaaaaaaaaaaaaaaaaaaaaaaaaaaaaaaaaaaa" =
  "b35439a4ac6f0948b6d6f9e3c6af0f5f590ce20f1bde7090ef7970686ec6738a".
Proof. vm_compute. reflexivity. Qed.

Example sha256_K_ends :
  head SHA256.K = Some 0x428a2f98 /\ last SHA256.K = Some 0xc67178f2 /\
  head SHA256.H0 = Some 0x6a09e667 /\ length SHA256.K = 64%nat.
Proof. vm_compute. repeat split. Qed.

(** ** What each handler computes *)

Arguments get_password_hash : simpl never.

Lemma verify_password_true (plain_password hashed_password : string) :
  verify_password plain_password hashed_password = true <->
  get_password_hash plain_password = hashed_password.
Proof. unfold verify_password. apply String.eqb_eq. Qed.

Lemma setattrs_dict (r : TodoDB.t) (todo : TodoCreate.t) :
  TodoDB.setattrs r (TodoCreate.dict todo) =
  TodoDB.mk (TodoDB.id r) (TodoCreate.title todo) (TodoCreate.completed todo)
            (TodoDB.owner r).
Proof. reflexivity. Qed.

Lemma init_kwargs (todo : TodoCreate.t) (current_user : string) :
  TodoDB.init (TodoCreate.dict todo ++ [("owner", VStr current_user)]) =
  TodoDB.mk 0 (TodoCreate.title todo) (TodoCreate.completed todo) current_user.
Proof. reflexivity. Qed.

Lemma first_user_None (username : string) (db : Database) :
  first_user username db = None <->
  forall u, u ∈ users db -> UserDB.username u <> username.
Proof. unfold first_user. by rewrite first_None. Qed.

Lemma first_user_Some (username : string) (db : Database) (u : UserDB.t) :
  first_user username db = Some u -> u ∈ users db /\ UserDB.username u = username.
Proof. unfold first_user. intros H. by apply first_Some in H. Qed.

Lemma get_current_user_eq (credentials : HTTPBasicCredentials.t) (db : Database) :
  get_current_user credentials db =
  (match first_user (HTTPBasicCredentials.username credentials) db with
   | Some user =>
       if verify_password (HTTPBasicCredentials.password credentials)
                          (UserDB.hashed_password user)
       then Return (UserDB.username user) else Raise Unauthorized
   | None => Raise Unauthorized
   end, db).
Proof.
  unfold get_current_user, bind, query_user, raise, ret.
  destruct (first_user _ _) as [user|]; [|done].
  by destruct (verify_password _ _).
Qed.

Lemma user_id_fresh (db : Database) (u : UserDB.t) :
  u ∈ users db -> UserDB.id u <> next_rowid (UserDB.id <$> users db).
Proof.
  intros Hu Heq. apply (next_rowid_fresh (UserDB.id <$> users db)).
  rewrite <- Heq. by apply list_elem_of_fmap_2.
Qed.

Lemma todo_id_fresh (db : Database) (r : TodoDB.t) :
  r ∈ todos db -> TodoDB.id r <> next_rowid (TodoDB.id <$> todos db).
Proof.
  intros Hr Heq. apply (next_rowid_fresh (TodoDB.id <$> todos db)).
  rewrite <- Heq. by apply list_elem_of_fmap_2.
Qed.

Lemma create_user_taken (user : UserCreate.t) (db : Database) (u : UserDB.t) :
  first_user (UserCreate.username user) db
    = Some u ->
  create_user user db = (Raise Conflict, db).
Proof. intros Hq. unfold create_user, bind, query_user, raise. by rewrite Hq. Qed.

Lemma create_user_free (user : UserCreate.t) (db : Database) :
  first_user (UserCreate.username user) db
    = None ->
  create_user user db =
  (Return (new_user user db),
   {| users := users db ++ [new_user user db]; todos := todos db |}).
Proof.
  intros Hq. unfold create_user, bind, query_user, insert_user, refresh_user.
  rewrite Hq. cbn [users todos UserDB.id]. fold (new_user user db).
  rewrite first_snoc_fresh; [done| |done].
  intros y Hy. by apply user_id_fresh.
Qed.

Lemma create_todo_eq (todo : TodoCreate.t) (current_user : string) (db : Database) :
  create_todo todo current_user db =
  (Return (new_todo todo current_user db),
   {| users := users db; todos := todos db ++ [new_todo todo current_user db] |}).
Proof.
  unfold create_todo, bind, insert_todo, refresh_todo. rewrite init_kwargs.
  cbn [users todos TodoDB.id TodoDB.title TodoDB.completed TodoDB.owner].
  fold (new_todo todo current_user db).
  rewrite first_snoc_fresh; [done| |done].
  intros y Hy. by apply todo_id_fresh.
Qed.

Lemma read_todo_eq (todo_id : Z) (current_user : string) (db : Database) :
  read_todo todo_id current_user db =
  (match first_todo todo_id current_user db with
   | Some todo => Return todo
   | None => Raise NotFound
   end, db).
Proof.
  unfold read_todo, bind, query_todo, raise, ret. by destruct (first_todo _ _ _).
Qed.

Lemma delete_todo_eq (todo_id : Z) (current_user : string) (db : Database) :
  delete_todo todo_id current_user db =
  match first_todo todo_id current_user db with
  | Some db_todo =>
      (Return (), {| users := users db;
                     todos := filter (fun r => TodoDB.id r <> TodoDB.id db_todo) (todos db) |})
  | None => (Raise NotFound, db)
  end.
Proof.
  unfold delete_todo, bind, query_todo, raise, delete_todo_row.
  by destruct (first_todo _ _ _).
Qed.

(** The row found by [(todo_id, current_user)] carries that id and owner. *)
Lemma query_todo_found (todo_id : Z) (current_user : string) (db : Database)
      (r : TodoDB.t) :
  first_todo todo_id current_user db = Some r ->
  r ∈ todos db /\ TodoDB.id r = todo_id /\ TodoDB.owner r = current_user.
Proof.
  unfold first_todo. intros [Hin Ho]%first_Some.
  apply list_elem_of_filter in Hin. tauto.
Qed.

Lemma query_todo_None (todo_id : Z) (current_user : string) (db : Database) :
  first_todo todo_id current_user db = None <->
  forall r, r ∈ todos db -> TodoDB.id r = todo_id -> TodoDB.owner r <> current_user.
Proof.
  unfold first_todo. rewrite first_None. split.
  - intros H r Hr Hid. apply H. apply list_elem_of_filter. tauto.
  - intros H r [Hid Hr]%list_elem_of_filter. by apply H.
Qed.

(** With unique ids, the query finds every row of the caller by its id. *)
Lemma query_todo_own (db : Database) (r : TodoDB.t) :
  NoDup (TodoDB.id <$> todos db) -> r ∈ todos db ->
  first_todo (TodoDB.id r) (TodoDB.owner r) db = Some r.
Proof.
  intros Hnd Hr.
  destruct (first_todo (TodoDB.id r) (TodoDB.owner r) db) as [y|] eqn:Hy.
  - f_equal. apply query_todo_found in Hy as (Hyl & Hid & _). by eapply key_inj.
  - exfalso. rewrite query_todo_None in Hy. by apply (Hy r Hr).
Qed.

(** The same, for a row of another owner: nothing is found. *)
Lemma query_todo_foreign (db : Database) (r : TodoDB.t) (current_user : string) :
  NoDup (TodoDB.id <$> todos db) -> r ∈ todos db ->
  TodoDB.owner r <> current_user ->
  first_todo (TodoDB.id r) current_user db = None.
Proof.
  intros Hnd Hr Hne. apply query_todo_None. intros x Hx Hid Ho.
  apply Hne. rewrite <- Ho. f_equal. by eapply key_inj.
Qed.

Lemma first_fmap {A : Type} (P : A -> Prop) `{!forall x, Decision (P x)}
      (f : A -> A) (l : list A) :
  (forall x, P (f x) <-> P x) ->
  head (filter P (f <$> l)) = f <$> head (filter P l).
Proof.
  intros Hf. induction l as [|x l IH]; [done|].
  rewrite fmap_cons, !filter_cons.
  destruct (decide (P (f x))) as [H1|H1], (decide (P x)) as [H2|H2];
    [cbn; reflexivity|destruct (Hf x); tauto|destruct (Hf x); tauto|exact IH].
Qed.

Lemma update_todo_eq (todo_id : Z) (todo : TodoCreate.t) (current_user : string)
      (db : Database) :
  update_todo todo_id todo current_user db =
  match first_todo todo_id current_user db with
  | Some db_todo =>
      let db' := {| users := users db;
                    todos := updated_todos (TodoDB.id db_todo) todo db |} in
      (match (fun r => TodoDB.setattrs r (TodoCreate.dict todo)) <$>
               head (filter (fun r => TodoDB.id r = TodoDB.id db_todo) (todos db)) with
       | Some row => Return row
       | None => Raise InvalidRequestError
       end, db')
  | None => (Raise NotFound, db)
  end.
Proof.
  unfold update_todo, bind, query_todo, raise, update_todo_row, refresh_todo.
  destruct (first_todo _ _ _) as [db_todo|]; [|done].
  cbn [todos users]. fold (updated_todos (TodoDB.id db_todo) todo db).
  unfold updated_todos at 1.
  rewrite (first_fmap (fun r => TodoDB.id r = TodoDB.id db_todo)).
  - destruct (head _) as [r0|] eqn:E; [|done]. cbn.
    apply first_Some in E as [_ E]. by rewrite decide_True.
  - intros x. case_decide; [|done]. by rewrite setattrs_dict.
Qed.

(** ** The stored state keeps its keys unique *)

Lemma updated_todos_ids (pk : Z) (todo : TodoCreate.t) (db : Database) :
  TodoDB.id <$> updated_todos pk todo db = TodoDB.id <$> todos db.
Proof.
  unfold updated_todos. rewrite <- list_fmap_compose.
  apply list_fmap_ext. intros _ r _. unfold compose. case_decide; [|done].
  by rewrite setattrs_dict.
Qed.

Lemma updated_todos_owners (pk : Z) (todo : TodoCreate.t) (db : Database) :
  TodoDB.owner <$> updated_todos pk todo db = TodoDB.owner <$> todos db.
Proof.
  unfold updated_todos. rewrite <- list_fmap_compose.
  apply list_fmap_ext. intros _ r _. unfold compose. case_decide; [|done].
  by rewrite setattrs_dict.
Qed.

Lemma create_user_wf (user : UserCreate.t) (db : Database) :
  wf db -> wf (snd (create_user user db)).
Proof.
  intros (Ht & Hi & Hn).
  destruct (first_user (UserCreate.username user) db) as [u|] eqn:E.
  - by rewrite (create_user_taken _ _ _ E).
  - rewrite (create_user_free _ _ E). unfold wf. cbn [snd users todos].
    rewrite !fmap_app. split_and!; [done| |].
    + apply NoDup_app. split_and!; [done| |apply NoDup_singleton].
      intros i Hi' ->%list_elem_of_singleton.
      by apply (next_rowid_fresh (UserDB.id <$> users db)).
    + apply NoDup_app. split_and!; [done| |apply NoDup_singleton].
      intros n Hn' ->%list_elem_of_singleton.
      apply list_elem_of_fmap in Hn' as (u & Hu & Hin).
      rewrite first_user_None in E. by apply (E u).
Qed.

Lemma create_todo_wf (todo : TodoCreate.t) (current_user : string) (db : Database) :
  wf db -> wf (snd (create_todo todo current_user db)).
Proof.
  intros (Ht & Hi & Hn). rewrite create_todo_eq. unfold wf.
  cbn [snd users todos]. rewrite fmap_app. split_and!; [|done|done].
  apply NoDup_app. split_and!; [done| |apply NoDup_singleton].
  intros i Hi' ->%list_elem_of_singleton.
  by apply (next_rowid_fresh (TodoDB.id <$> todos db)).
Qed.

Lemma update_todo_wf (todo_id : Z) (todo : TodoCreate.t) (current_user : string)
      (db : Database) :
  wf db -> wf (snd (update_todo todo_id todo current_user db)).
Proof.
  intros (Ht & Hi & Hn). rewrite update_todo_eq.
  destruct (first_todo _ _ _) as [db_todo|]; [|done].
  unfold wf. cbn [snd users todos]. by rewrite updated_todos_ids.
Qed.

Lemma delete_todo_wf (todo_id : Z) (current_user : string) (db : Database) :
  wf db -> wf (snd (delete_todo todo_id current_user db)).
Proof.
  intros (Ht & Hi & Hn). rewrite delete_todo_eq.
  destruct (first_todo _ _ _) as [db_todo|]; [|done].
  unfold wf. cbn [snd users todos]. split_and!; [|done|done].
  eapply sublist_NoDup; [exact Ht|]. apply fmap_sublist, sublist_filter.
Qed.

Lemma get_current_user_db (credentials : HTTPBasicCredentials.t) (db : Database) :
  snd (get_current_user credentials db) = db.
Proof. by rewrite get_current_user_eq. Qed.

Lemma respond_db {A : Type} (success : Z) (render : A -> Content) (h : Handler A)
      (db : Database) :
  snd (respond success render h db) = snd (h db).
Proof.
  unfold respond. destruct (h db) as [[a|[code detail hs|]] db']; done.
Qed.

(** A protected route leaves the database alone when the credentials are
    refused, and otherwise leaves what the endpoint leaves for the
    authenticated username. *)
Lemma Depends_db {A : Type} (credentials : HTTPBasicCredentials.t)
      (endpoint : string -> Handler A) (db : Database) :
  snd (Depends (get_current_user credentials) endpoint db) = db \/
  exists current_user,
    get_current_user credentials db = (Return current_user, db) /\
    snd (Depends (get_current_user credentials) endpoint db)
      = snd (endpoint current_user db).
Proof.
  unfold Depends, bind.
  destruct (get_current_user credentials db) as [[u|e] db'] eqn:E.
  - right. exists u. pose proof (get_current_user_db credentials db) as Hdb.
    rewrite E in Hdb. cbn in Hdb. by subst db'.
  - left. pose proof (get_current_user_db credentials db) as Hdb.
    rewrite E in Hdb. by cbn in *.
Qed.

Lemma handle_wf (r : Request) (db : Database) : wf db -> wf (snd (handle r db)).
Proof.
  intros Hwf. destruct r; cbn [handle]; rewrite respond_db.
  - by apply create_user_wf.
  - by destruct (Depends_db credentials read_users_me db) as [->|(u & _ & ->)].
  - by destruct (Depends_db credentials read_todos db) as [->|(u & _ & ->)].
  - destruct (Depends_db credentials (read_todo todo_id) db) as [->|(u & _ & ->)];
      [done|]. by rewrite read_todo_eq.
  - destruct (Depends_db credentials (create_todo todo) db) as [->|(u & _ & ->)];
      [done|]. by apply create_todo_wf.
  - destruct (Depends_db credentials (update_todo todo_id todo) db)
      as [->|(u & _ & ->)]; [done|]. by apply update_todo_wf.
  - destruct (Depends_db credentials (delete_todo todo_id) db)
      as [->|(u & _ & ->)]; [done|]. by apply delete_todo_wf.
  - exact Hwf.
Qed.

Lemma startup_wf : wf startup.
Proof. unfold wf, startup. cbn. split_and!; apply NoDup_nil_2. Qed.

Lemma reachable_wf (db : Database) : reachable db -> wf db.
Proof.
  induction 1 as [|r db _ IH]; [apply startup_wf|by apply handle_wf].
Qed.

Lemma serve_reachable (requests : list Request) (db : Database) :
  reachable db -> reachable (snd (serve requests db)).
Proof.
  revert db. induction requests as [|r rest IH]; intros db Hdb; [done|].
  cbn [serve]. destruct (handle r db) as [response db'] eqn:E.
  specialize (IH db'). destruct (serve rest db') as [responses db''].
  cbn in *. apply IH. replace db' with (snd (handle r db)) by by rewrite E.
  by constructor.
Qed.

(** ** Rows of other owners stay as they are *)

Lemma update_todo_keeps (db : Database) (t : TodoDB.t) (todo_id : Z)
      (todo : TodoCreate.t) (current_user : string) :
  wf db -> t ∈ todos db -> TodoDB.owner t <> current_user ->
  t ∈ todos (snd (update_todo todo_id todo current_user db)).
Proof.
  intros (Hnd & _) Ht Hne. rewrite update_todo_eq.
  destruct (first_todo _ _ _) as [db_todo|] eqn:E; [|done]. cbn [snd todos].
  apply query_todo_found in E as (Hin & Hid & Ho).
  unfold updated_todos. apply list_elem_of_fmap. exists t. split; [|done].
  rewrite decide_False; [done|]. intros Heq. apply Hne. rewrite <- Ho.
  f_equal. by eapply key_inj.
Qed.

Lemma delete_todo_keeps (db : Database) (t : TodoDB.t) (todo_id : Z)
      (current_user : string) :
  wf db -> t ∈ todos db -> TodoDB.owner t <> current_user ->
  t ∈ todos (snd (delete_todo todo_id current_user db)).
Proof.
  intros (Hnd & _) Ht Hne. rewrite delete_todo_eq.
  destruct (first_todo _ _ _) as [db_todo|] eqn:E; [|done]. cbn [snd todos].
  apply query_todo_found in E as (Hin & Hid & Ho).
  apply list_elem_of_filter. split; [|done]. intros Heq. apply Hne.
  rewrite <- Ho. f_equal. by eapply key_inj.
Qed.

Lemma query_todo_absent (db0 : Database) (todo_id : Z) (current_user : string) :
  (forall r, r ∈ todos db0 -> TodoDB.id r <> todo_id) ->
  first_todo todo_id current_user db0 = None.
Proof. intros Habs. apply query_todo_None. intros r Hr Hid. by destruct (Habs r Hr). Qed.

(** C1: for distinct users A and B, a todo owned by A is never returned or
    affected by list, get, update or delete invoked by B.  In every
    well-formed database holding a row [t] owned by A: the list of B holds
    only rows owned by B (so not [t]); get, update and delete by B on the id
    of [t] raise NotFound and leave the database as it is; their results are
    the ones obtained on any database that holds no row with that id at all;
    and whatever id B passes to update or delete, [t] is still stored
    unchanged. *)
Theorem todo_isolation (db : Database) (A B : string) (t : TodoDB.t) :
  wf db -> t ∈ todos db -> TodoDB.owner t = A -> A <> B ->
  (exists l, read_todos B db = (Return l, db) /\ (t ∉ l) /\
             (forall r, r ∈ l -> TodoDB.owner r = B)) /\
  read_todo (TodoDB.id t) B db = (Raise NotFound, db) /\
  (forall todo, update_todo (TodoDB.id t) todo B db = (Raise NotFound, db)) /\
  delete_todo (TodoDB.id t) B db = (Raise NotFound, db) /\
  (forall db0, (forall r, r ∈ todos db0 -> TodoDB.id r <> TodoDB.id t) ->
     fst (read_todo (TodoDB.id t) B db0) = fst (read_todo (TodoDB.id t) B db) /\
     (forall todo, fst (update_todo (TodoDB.id t) todo B db0)
                   = fst (update_todo (TodoDB.id t) todo B db)) /\
     fst (delete_todo (TodoDB.id t) B db0) = fst (delete_todo (TodoDB.id t) B db)) /\
  (forall todo_id todo, t ∈ todos (snd (update_todo todo_id todo B db))) /\
  (forall todo_id, t ∈ todos (snd (delete_todo todo_id B db))).
Proof.
  intros Hwf Ht HA HAB. subst A.
  pose proof (query_todo_foreign db t B (proj1 Hwf) Ht HAB) as Hq.
  assert (Hget : read_todo (TodoDB.id t) B db = (Raise NotFound, db))
    by (rewrite read_todo_eq, Hq; reflexivity).
  assert (Hupd : forall todo,
             update_todo (TodoDB.id t) todo B db = (Raise NotFound, db))
    by (intros todo; rewrite update_todo_eq, Hq; reflexivity).
  assert (Hdel : delete_todo (TodoDB.id t) B db = (Raise NotFound, db))
    by (rewrite delete_todo_eq, Hq; reflexivity).
  split_and!; try done.
  - eexists. split; [reflexivity|]. split.
    + intros [Ho _]%list_elem_of_filter. done.
    + by intros r [Ho _]%list_elem_of_filter.
  - intros db0 Habs. pose proof (query_todo_absent db0 _ B Habs) as Hq0.
    rewrite Hget, Hdel, read_todo_eq, delete_todo_eq, Hq0.
    split_and!; try done. intros todo. by rewrite Hupd, update_todo_eq, Hq0.
  - intros todo_id todo. by apply update_todo_keeps.
  - intros todo_id. by apply delete_todo_keeps.
Qed.

(** C2: authentication succeeds, returning the presented username as the
    identity, exactly when a user with that username is stored and the hash
    of the presented password equals the stored digest; every other
    presentation is rejected with Unauthorized.  The database is never
    changed. *)
Theorem authentication_iff (db : Database) (credentials : HTTPBasicCredentials.t) :
  wf db ->
  (get_current_user credentials db
     = (Return (HTTPBasicCredentials.username credentials), db) <->
   exists u, u ∈ users db /\
             UserDB.username u = HTTPBasicCredentials.username credentials /\
             get_password_hash (HTTPBasicCredentials.password credentials)
               = UserDB.hashed_password u) /\
  (get_current_user credentials db
     = (Return (HTTPBasicCredentials.username credentials), db) \/
   get_current_user credentials db = (Raise Unauthorized, db)).
Proof.
  intros (_ & _ & Hnd). rewrite get_current_user_eq.
  destruct (first_user _ _) as [user|] eqn:E.
  - pose proof E as [Hin Hname]%first_user_Some.
    destruct (verify_password _ _) eqn:V.
    + rewrite Hname. split; [|by left]. split; [|done]. intros _.
      exists user. by apply verify_password_true in V.
    + split; [|by right]. split; [done|]. intros (u & Hu & Hun & Hh).
      assert (u = user) as -> by (eapply key_inj; [exact Hnd|done|done|congruence]).
      apply verify_password_true in Hh. congruence.
  - split; [|by right]. split; [done|]. intros (u & Hu & Hun & _).
    rewrite first_user_None in E. by destruct (E u Hu).
Qed.

Lemma get_current_user_name (credentials : HTTPBasicCredentials.t) (db : Database)
      (current_user : string) (db' : Database) :
  get_current_user credentials db = (Return current_user, db') ->
  current_user = HTTPBasicCredentials.username credentials /\ db' = db.
Proof.
  rewrite get_current_user_eq. destruct (first_user _ _) as [user|] eqn:E; [|done].
  apply first_user_Some in E as [_ E]. destruct (verify_password _ _); [|done].
  intros [= <- <-]. done.
Qed.

(** C3: whatever the request body and whoever the authenticated caller,
    [create_todo] succeeds and the todo it stores and returns is owned by the
    caller; the body has no owner field that could say otherwise.  Through
    the route: every row that POST /todos adds is owned by the username the
    client authenticated with. *)
Theorem create_todo_owner (todo : TodoCreate.t) (current_user : string)
        (db : Database) :
  fst <$> TodoCreate.dict todo = ["title"; "completed"] /\
  (exists row,
    create_todo todo current_user db
      = (Return row, {| users := users db; todos := todos db ++ [row] |}) /\
    TodoDB.owner row = current_user) /\
  (forall credentials r,
     r ∈ todos (snd (handle (POST_todos credentials todo) db)) ->
     r ∈ todos db \/
     TodoDB.owner r = HTTPBasicCredentials.username credentials).
Proof.
  split; [done|]. split.
  - exists (new_todo todo current_user db). by rewrite create_todo_eq.
  - intros credentials r. cbn [handle]. rewrite respond_db.
    destruct (Depends_db credentials (create_todo todo) db)
      as [->|(u & Hu & ->)]; [by left|].
    apply get_current_user_name in Hu as [-> _]. rewrite create_todo_eq.
    cbn [snd todos]. intros [Hr|Hr%list_elem_of_singleton]%elem_of_app;
      [by left|right]. by subst r.
Qed.

(** ** User rows are only ever appended *)

Lemma update_todo_users (todo_id : Z) (todo : TodoCreate.t) (current_user : string)
      (db : Database) :
  users (snd (update_todo todo_id todo current_user db)) = users db.
Proof. rewrite update_todo_eq. by destruct (first_todo _ _ _). Qed.

Lemma delete_todo_users (todo_id : Z) (current_user : string) (db : Database) :
  users (snd (delete_todo todo_id current_user db)) = users db.
Proof. rewrite delete_todo_eq. by destruct (first_todo _ _ _). Qed.

Lemma handle_users (r : Request) (db : Database) :
  users (snd (handle r db)) = users db \/
  exists user,
    r = POST_users user /\
    first_user (UserCreate.username user) db
      = None /\
    users (snd (handle r db)) = users db ++ [new_user user db].
Proof.
  destruct r; cbn [handle]; rewrite respond_db.
  - destruct (first_user (UserCreate.username user) db) as [u|] eqn:E.
    + left. by rewrite (create_user_taken _ _ _ E).
    + right. exists user. by rewrite (create_user_free _ _ E).
  - left. by destruct (Depends_db credentials read_users_me db) as [->|(u & _ & ->)].
  - left. by destruct (Depends_db credentials read_todos db) as [->|(u & _ & ->)].
  - left. destruct (Depends_db credentials (read_todo todo_id) db)
      as [->|(u & _ & ->)]; [done|]. by rewrite read_todo_eq.
  - left. destruct (Depends_db credentials (create_todo todo) db)
      as [->|(u & _ & ->)]; [done|]. by rewrite create_todo_eq.
  - left. destruct (Depends_db credentials (update_todo todo_id todo) db)
      as [->|(u & _ & ->)]; [done|]. apply update_todo_users.
  - left. destruct (Depends_db credentials (delete_todo todo_id) db)
      as [->|(u & _ & ->)]; [done|]. apply delete_todo_users.
  - by left.
Qed.

Lemma handle_first_user (r : Request) (db : Database) (username : string)
      (row : UserDB.t) :
  first_user username db = Some row ->
  first_user username (snd (handle r db))
    = Some row.
Proof.
  unfold first_user. intros Hrow.
  destruct (handle_users r db) as [->|(user & _ & _ & ->)]; [done|].
  by apply first_snoc_found.
Qed.

Lemma serve_first_user (requests : list Request) (db : Database)
      (username : string) (row : UserDB.t) :
  first_user username db = Some row ->
  first_user username (snd (serve requests db)) = Some row.
Proof.
  revert db. induction requests as [|r rest IH]; intros db Hrow; [done|].
  cbn [serve]. pose proof (handle_first_user r db username row Hrow) as Hstep.
  destruct (handle r db) as [response db']. specialize (IH db' Hstep).
  by destruct (serve rest db') as [responses db''].
Qed.

(** A successful registration stores the row it returns, and that row is the
    one the username query then finds. *)
Lemma create_user_Return (user : UserCreate.t) (db db1 : Database) (row : UserDB.t) :
  create_user user db = (Return row, db1) ->
  row = new_user user db /\
  db1 = {| users := users db ++ [row]; todos := todos db |} /\
  first_user (UserCreate.username user) db
    = None /\
  first_user (UserCreate.username user) db1
    = Some row.
Proof.
  destruct (first_user (UserCreate.username user) db) as [u|] eqn:E.
  - by rewrite (create_user_taken _ _ _ E).
  - rewrite (create_user_free _ _ E). intros [= <- <-]. split_and!; try done.
    unfold first_user. cbn [users]. apply first_snoc_fresh; [|done].
    exact (proj1 (first_user_None _ _) E).
Qed.

(** C4: once a username has been registered, registering it again - with
    any password, after any requests served in between - fails with Conflict
    (status 400, "Username already registered"), leaves the database as it
    was, and the digest stored for the username is still the hash of the
    first password. *)
Theorem register_twice_conflict (user : UserCreate.t) (db db1 : Database)
        (row : UserDB.t) (requests : list Request) (password2 : string) :
  create_user user db = (Return row, db1) ->
  create_user (UserCreate.mk (UserCreate.username user) password2)
              (snd (serve requests db1))
    = (Raise Conflict, snd (serve requests db1)) /\
  stored_digest (UserCreate.username user)
                (snd (create_user (UserCreate.mk (UserCreate.username user) password2)
                                  (snd (serve requests db1))))
    = Some (get_password_hash (UserCreate.password user)).
Proof.
  intros (-> & _ & _ & Hfirst)%create_user_Return.
  pose proof (serve_first_user requests db1 _ _ Hfirst) as Hlater.
  assert (Hsecond :
            create_user (UserCreate.mk (UserCreate.username user) password2)
                        (snd (serve requests db1))
            = (Raise Conflict, snd (serve requests db1)))
    by (eapply create_user_taken; exact Hlater).
  split; [exact Hsecond|]. rewrite Hsecond. cbn [snd].
  unfold stored_digest. by rewrite Hlater.
Qed.

(** ** Create, read, update, delete *)

Lemma query_new_todo (todo : TodoCreate.t) (current_user : string) (db : Database) :
  head (filter (fun r => TodoDB.owner r = current_user)
          (filter (fun r => TodoDB.id r = TodoDB.id (new_todo todo current_user db))
                  (todos db ++ [new_todo todo current_user db])))
    = Some (new_todo todo current_user db).
Proof.
  rewrite filter_app.
  assert (filter (fun r => TodoDB.id r = TodoDB.id (new_todo todo current_user db))
                 (todos db) = []) as ->.
  { apply head_None, first_None. intros r Hr. by apply todo_id_fresh. }
  rewrite app_nil_l, filter_cons_True by done.
  rewrite filter_nil, filter_cons_True by done. done.
Qed.

(** C5: create followed by get on the returned id gives back the todo just
    created: the title and the completed flag that were sent, owned by the
    caller. *)
Theorem create_then_get (todo : TodoCreate.t) (current_user : string)
        (db : Database) :
  exists row db',
    create_todo todo current_user db = (Return row, db') /\
    read_todo (TodoDB.id row) current_user db' = (Return row, db') /\
    TodoDB.title row = TodoCreate.title todo /\
    TodoDB.completed row = TodoCreate.completed todo /\
    TodoDB.owner row = current_user.
Proof.
  eexists _, _. split; [apply create_todo_eq|]. split_and!; try done.
  rewrite read_todo_eq. unfold first_todo. cbn [todos].
  by rewrite query_new_todo.
Qed.

Lemma updated_todos_elem (db : Database) (t : TodoDB.t) (todo : TodoCreate.t) :
  t ∈ todos db ->
  TodoDB.setattrs t (TodoCreate.dict todo) ∈ updated_todos (TodoDB.id t) todo db.
Proof.
  intros Ht. unfold updated_todos. apply list_elem_of_fmap. exists t.
  by rewrite decide_True.
Qed.

(** C6: an update by the owner replaces both fields: the returned todo, and
    the todo a following get returns, has the new title and the new
    completed flag (and the id and owner it had).  In particular, sending
    the stored title again with another flag keeps the title and changes the
    flag. *)
Theorem update_replaces_fields (db : Database) (t : TodoDB.t) (todo : TodoCreate.t) :
  wf db -> t ∈ todos db ->
  (exists db',
     update_todo (TodoDB.id t) todo (TodoDB.owner t) db
       = (Return (TodoDB.mk (TodoDB.id t) (TodoCreate.title todo)
                            (TodoCreate.completed todo) (TodoDB.owner t)), db') /\
     read_todo (TodoDB.id t) (TodoDB.owner t) db'
       = (Return (TodoDB.mk (TodoDB.id t) (TodoCreate.title todo)
                            (TodoCreate.completed todo) (TodoDB.owner t)), db')) /\
  (forall completed,
     fst (update_todo (TodoDB.id t) (TodoCreate.mk (TodoDB.title t) completed)
                      (TodoDB.owner t) db)
       = Return (TodoDB.mk (TodoDB.id t) (TodoDB.title t) completed (TodoDB.owner t))).
Proof.
  intros Hwf Ht. pose proof (proj1 Hwf) as Hnd.
  assert (Hupd : forall body,
    update_todo (TodoDB.id t) body (TodoDB.owner t) db
    = (Return (TodoDB.setattrs t (TodoCreate.dict body)),
       {| users := users db; todos := updated_todos (TodoDB.id t) body db |})).
  { intros body. rewrite update_todo_eq, (query_todo_own db t Hnd Ht).
    cbn zeta. by rewrite (first_by_key TodoDB.id (todos db) t Hnd Ht). }
  split; [|intros completed; by rewrite Hupd].
  eexists. split; [apply Hupd|]. rewrite read_todo_eq. cbn [todos].
  pose proof (updated_todos_elem db t todo Ht) as Hin.
  pose proof (query_todo_own
                {| users := users db; todos := updated_todos (TodoDB.id t) todo db |}
                (TodoDB.setattrs t (TodoCreate.dict todo))) as Hq.
  cbn [todos] in Hq. rewrite updated_todos_ids in Hq.
  rewrite setattrs_dict in Hq, Hin. cbn [TodoDB.id TodoDB.owner] in Hq.
  by rewrite (Hq Hnd Hin).
Qed.


(** C8: an update changes nothing but the title and completed columns of
    the rows with the given id.  The body has exactly the fields title and
    completed; the users table is as before; the id and owner columns of the
    todos table are as before, row by row; and every row with another id is
    still at its position, unchanged. *)
Theorem update_frame (db : Database) (todo_id : Z) (todo : TodoCreate.t)
        (current_user : string) :
  fst <$> TodoCreate.dict todo = ["title"; "completed"] /\
  users (snd (update_todo todo_id todo current_user db)) = users db /\
  TodoDB.id <$> todos (snd (update_todo todo_id todo current_user db))
    = TodoDB.id <$> todos db /\
  TodoDB.owner <$> todos (snd (update_todo todo_id todo current_user db))
    = TodoDB.owner <$> todos db /\
  (forall (k : nat) (r : TodoDB.t),
     todos db !! k = Some r -> TodoDB.id r <> todo_id ->
     todos (snd (update_todo todo_id todo current_user db)) !! k = Some r).
Proof.
  split; [done|]. split; [apply update_todo_users|].
  rewrite update_todo_eq. destruct (first_todo _ _ _) as [db_todo|] eqn:E; [|done].
  cbn [snd todos]. apply query_todo_found in E as (_ & Hid & _).
  split_and!; [apply updated_todos_ids|apply updated_todos_owners|].
  intros k r Hk Hne. unfold updated_todos. rewrite list_lookup_fmap, Hk. cbn.
  rewrite decide_False; [done|congruence].
Qed.

(** C9: the stored digest depends on the password alone.  Two
    registrations with the same password - of any two usernames, in any two
    databases, in one run of the service or in two - return and store the
    same digest, the hash of the password. *)
Theorem digest_of_password_only (user1 user2 : UserCreate.t) (db db' s1 s2 : Database)
        (r1 r2 : UserDB.t) :
  UserCreate.password user1 = UserCreate.password user2 ->
  create_user user1 db = (Return r1, s1) ->
  create_user user2 db' = (Return r2, s2) ->
  UserDB.hashed_password r1 = UserDB.hashed_password r2 /\
  stored_digest (UserCreate.username user1) s1
    = Some (get_password_hash (UserCreate.password user1)) /\
  stored_digest (UserCreate.username user2) s2
    = stored_digest (UserCreate.username user1) s1.
Proof.
  intros Hpw (-> & _ & _ & H1)%create_user_Return
         (-> & _ & _ & H2)%create_user_Return.
  unfold stored_digest. rewrite H1, H2. cbn. by rewrite Hpw.
Qed.


(** ** The properties on the concrete run *)

(** The scenario of the specification: bob cannot see the todo of alice;
    alice updates it, deletes it, and then no longer finds it. *)
Example scenario :
  fst (serve (firstn 3 example_requests ++
              [ GET_todo bob 1;
                PUT_todo alice 1 (TodoCreate.mk "buy milk and eggs" true);
                DELETE_todo alice 1;
                GET_todo alice 1;
                GET_todo (HTTPBasicCredentials.mk "alice" "pw2") 1 ]) startup)
  = [ {| status_code := 201; content := JUser (User.mk "alice") |};
      {| status_code := 201; content := JUser (User.mk "bob") |};
      {| status_code := 201;
         content := JTodo (Todo.mk 1 "buy milk" false "alice") |};
      {| status_code := 404; content := JDetail "Todo not found" |};
      {| status_code := 200;
         content := JTodo (Todo.mk 1 "buy milk and eggs" true "alice") |};
      {| status_code := 204; content := JEmpty |};
      {| status_code := 404; content := JDetail "Todo not found" |};
      {| status_code := 401; content := JDetail "Incorrect username or password" |} ].
Proof. vm_compute. reflexivity. Qed.

Lemma example_db_reachable : reachable example_db.
Proof.
  change example_db with (snd (serve example_requests startup)).
  apply serve_reachable, reachable_startup.
Qed.

Lemma example_db_wf : wf example_db.
Proof. apply reachable_wf, example_db_reachable. Qed.

Lemma buy_milk_stored : buy_milk ∈ todos example_db.
Proof. apply list_elem_of_here. Qed.

Lemma todo_isolation_witness :
  read_todo 1 "bob" example_db = (Raise NotFound, example_db) /\
  (forall todo, update_todo 1 todo "bob" example_db = (Raise NotFound, example_db)) /\
  delete_todo 1 "bob" example_db = (Raise NotFound, example_db).
Proof.
  destruct (todo_isolation example_db "alice" "bob" buy_milk)
    as (_ & Hget & Hupd & Hdel & _).
  - exact example_db_wf.
  - exact buy_milk_stored.
  - reflexivity.
  - discriminate.
  - exact (conj Hget (conj Hupd Hdel)).
Defined.

Lemma authentication_iff_witness :
  get_current_user alice example_db = (Return "alice", example_db).
Proof.
  apply (proj2 (proj1 (authentication_iff example_db alice example_db_wf))).
  exists (UserDB.mk 1 "alice" (get_password_hash "pw1")).
  split; [apply list_elem_of_here|]. split; reflexivity.
Defined.

Lemma register_twice_conflict_witness :
  create_user (UserCreate.mk "alice" "other") example_db
    = (Raise Conflict, example_db) /\
  stored_digest "alice"
                (snd (create_user (UserCreate.mk "alice" "other") example_db))
    = Some (get_password_hash "pw1").
Proof.
  apply (register_twice_conflict
           (UserCreate.mk "alice" "pw1") startup
           (snd (create_user (UserCreate.mk "alice" "pw1") startup))
           (new_user (UserCreate.mk "alice" "pw1") startup)
           (tail example_requests) "other").
  vm_compute. reflexivity.
Defined.

Lemma update_replaces_fields_witness :
  fst (update_todo 1 (TodoCreate.mk "buy milk" true) "alice" example_db)
    = Return (TodoDB.mk 1 "buy milk" true "alice").
Proof.
  exact (proj2 (update_replaces_fields example_db buy_milk
                  (TodoCreate.mk "buy milk and eggs" true)
                  example_db_wf buy_milk_stored) true).
Defined.

Lemma digest_of_password_only_witness :
  stored_digest "carol"
    (snd (create_user (UserCreate.mk "carol" "pw1") example_db))
  = stored_digest "alice" (snd (create_user (UserCreate.mk "alice" "pw1") startup)).
Proof.
  refine (proj2 (proj2 (digest_of_password_only
            (UserCreate.mk "alice" "pw1") (UserCreate.mk "carol" "pw1")
            startup example_db
            (snd (create_user (UserCreate.mk "alice" "pw1") startup))
            (snd (create_user (UserCreate.mk "carol" "pw1") example_db))
            (new_user (UserCreate.mk "alice" "pw1") startup)
            (new_user (UserCreate.mk "carol" "pw1") example_db) _ _ _))).
  - reflexivity.
  - vm_compute. reflexivity.
  - vm_compute. reflexivity.
Defined.


(** * Further properties of the service *)

(** ** Requests, one route at a time *)

Lemma get_current_user_cases (credentials : HTTPBasicCredentials.t) (db : Database) :
  get_current_user credentials db
    = (Return (HTTPBasicCredentials.username credentials), db) /\
    (exists u, u ∈ users db /\
               UserDB.username u = HTTPBasicCredentials.username credentials /\
               get_password_hash (HTTPBasicCredentials.password credentials)
                 = UserDB.hashed_password u) \/
  get_current_user credentials db = (Raise Unauthorized, db).
Proof.
  rewrite get_current_user_eq.
  destruct (first_user _ _) as [user|] eqn:E; [|by right].
  apply first_user_Some in E as [Hin Hname].
  destruct (verify_password _ _) eqn:V; [left|by right].
  rewrite Hname. split; [done|]. exists user.
  by apply verify_password_true in V.
Qed.

Lemma update_todo_found (todo_id : Z) (todo : TodoCreate.t) (current_user : string)
      (db : Database) (t : TodoDB.t) :
  first_todo todo_id current_user db = Some t ->
  exists row,
    update_todo todo_id todo current_user db
      = (Return row, {| users := users db;
                        todos := updated_todos (TodoDB.id t) todo db |}) /\
    TodoDB.id row = todo_id /\
    TodoDB.title row = TodoCreate.title todo /\
    TodoDB.completed row = TodoCreate.completed todo.
Proof.
  intros Hq. rewrite update_todo_eq, Hq. cbn zeta.
  apply query_todo_found in Hq as (Hin & Hid & _).
  destruct (first_is_Some (fun r => TodoDB.id r = TodoDB.id t) (todos db) t Hin eq_refl)
    as [r0 Hr0].
  rewrite Hr0. cbn. eexists. split; [reflexivity|].
  apply first_Some in Hr0 as [_ Hr0]. cbn. by rewrite Hr0.
Qed.

(** What a request does to the database: nothing, or one of the four
    writes, each answered with a status below 400. *)
Lemma handle_effect (r : Request) (db : Database) :
  snd (handle r db) = db \/
  (status_code (fst (handle r db)) < 400 /\
   ((exists user,
       r = POST_users user /\
       first_user (UserCreate.username user) db = None /\
       snd (handle r db)
         = {| users := users db ++ [new_user user db]; todos := todos db |}) \/
    (exists c todo,
       r = POST_todos c todo /\
       get_current_user c db = (Return (HTTPBasicCredentials.username c), db) /\
       snd (handle r db)
         = {| users := users db;
              todos := todos db ++
                       [new_todo todo (HTTPBasicCredentials.username c) db] |}) \/
    (exists c todo_id todo t,
       r = PUT_todo c todo_id todo /\
       first_todo todo_id (HTTPBasicCredentials.username c) db = Some t /\
       snd (handle r db)
         = {| users := users db; todos := updated_todos (TodoDB.id t) todo db |}) \/
    (exists c todo_id t,
       r = DELETE_todo c todo_id /\
       first_todo todo_id (HTTPBasicCredentials.username c) db = Some t /\
       snd (handle r db)
         = {| users := users db;
              todos := filter (fun x => TodoDB.id x <> TodoDB.id t) (todos db) |}))).
Proof.
  destruct r as [user|c|c|c i|c todo|c i todo|c i|]; cbn [handle];
    unfold respond, Depends, bind.
  - destruct (first_user (UserCreate.username user) db) as [u|] eqn:E.
    + left. by rewrite (create_user_taken _ _ _ E).
    + right. rewrite (create_user_free _ _ E). split; [done|]. left. by exists user.
  - left. by destruct (get_current_user_cases c db) as [[-> _]| ->].
  - left. by destruct (get_current_user_cases c db) as [[-> _]| ->].
  - left. destruct (get_current_user_cases c db) as [[-> _]| ->]; [|done].
    rewrite read_todo_eq. by destruct (first_todo _ _ _).
  - destruct (get_current_user_cases c db) as [[Hu _]| ->]; [|by left].
    right. rewrite Hu, create_todo_eq. split; [done|]. right. left. by exists c, todo.
  - destruct (get_current_user_cases c db) as [[-> _]| ->]; [|by left].
    destruct (first_todo i (HTTPBasicCredentials.username c) db) as [t|] eqn:E.
    + right. destruct (update_todo_found i todo _ db t E) as (row & -> & _).
      split; [done|]. do 2 right. left. by exists c, i, todo, t.
    + left. by rewrite update_todo_eq, E.
  - destruct (get_current_user_cases c db) as [[-> _]| ->]; [|by left].
    rewrite delete_todo_eq.
    destruct (first_todo i (HTTPBasicCredentials.username c) db) as [t|] eqn:E;
      [right|by left].
    split; [done|]. do 3 right. by exists c, i, t.
  - by left.
Qed.

(** ** Invariants of the running service *)

(** X1: in every state the service can reach from its start, no two todos
    share an id, no two users share an id, and no two users share a
    username. *)
Theorem reachable_keys_unique (db : Database) :
  reachable db ->
  NoDup (TodoDB.id <$> todos db) /\
  NoDup (UserDB.id <$> users db) /\
  NoDup (UserDB.username <$> users db).
Proof. intros Hr. exact (reachable_wf db Hr). Qed.

Lemma get_current_user_registered (c : HTTPBasicCredentials.t) (db : Database)
      (current_user : string) :
  get_current_user c db = (Return current_user, db) ->
  current_user ∈ UserDB.username <$> users db.
Proof.
  intros Hc. destruct (get_current_user_cases c db) as [[Hok (u & Hu & Hn & _)]|Hno].
  - rewrite Hok in Hc. injection Hc as <-. rewrite <- Hn.
    by apply list_elem_of_fmap_2.
  - rewrite Hno in Hc. discriminate.
Qed.

Lemma handle_owners_registered (r : Request) (db : Database) :
  (forall o, o ∈ TodoDB.owner <$> todos db -> o ∈ UserDB.username <$> users db) ->
  forall o, o ∈ TodoDB.owner <$> todos (snd (handle r db)) ->
            o ∈ UserDB.username <$> users (snd (handle r db)).
Proof.
  intros Hinv o.
  destruct (handle_effect r db) as [->|[_ [H|[H|[H|H]]]]]; [by apply Hinv|..].
  - destruct H as (user & _ & _ & ->). cbn [users todos]. intros Ho.
    rewrite fmap_app. apply elem_of_app. left. by apply Hinv.
  - destruct H as (c & todo & _ & Hc & ->). cbn [users todos].
    rewrite fmap_app. intros [Ho|Ho]%elem_of_app; [by apply Hinv|].
    apply list_elem_of_singleton in Ho as ->. cbn.
    by apply (get_current_user_registered c db).
  - destruct H as (c & i & todo & t & _ & _ & ->). cbn [users todos].
    rewrite updated_todos_owners. by apply Hinv.
  - destruct H as (c & i & t & _ & _ & ->). cbn [users todos]. intros Ho.
    apply Hinv. apply list_elem_of_fmap in Ho as (x & -> & Hx).
    apply list_elem_of_filter in Hx as [_ Hx]. by apply list_elem_of_fmap_2.
Qed.

(** X2: in every state the service can reach, the owner of every stored
    todo is the username of a stored user, although the tables declare no
    foreign key. *)
Theorem reachable_owners_registered (db : Database) (t : TodoDB.t) :
  reachable db -> t ∈ todos db ->
  exists u, u ∈ users db /\ UserDB.username u = TodoDB.owner t.
Proof.
  intros Hr Ht.
  assert (Hinv : forall o, o ∈ TodoDB.owner <$> todos db ->
                           o ∈ UserDB.username <$> users db).
  { clear t Ht. induction Hr as [|r db _ IH].
    - intros o Ho. by apply elem_of_nil in Ho.
    - by apply handle_owners_registered. }
  specialize (Hinv (TodoDB.owner t) (list_elem_of_fmap_2 _ _ _ Ht)).
  apply list_elem_of_fmap in Hinv as (u & Hu & Hin). by exists u.
Qed.

(** ** Authentication in front of every protected route *)

(** X3: when no stored user has both the presented username and the digest
    of the presented password, every route that takes credentials answers
    401 "Incorrect username or password" and leaves the database as it
    is. *)
Theorem refused_credentials (r : Request) (c : HTTPBasicCredentials.t)
        (db : Database) :
  credentials_of r = Some c ->
  (forall u, u ∈ users db ->
             UserDB.username u = HTTPBasicCredentials.username c ->
             get_password_hash (HTTPBasicCredentials.password c)
               <> UserDB.hashed_password u) ->
  handle r db
    = ({| status_code := HTTP_401_UNAUTHORIZED;
          content := JDetail "Incorrect username or password" |}, db).
Proof.
  intros Hc Hno.
  assert (Hu : get_current_user c db = (Raise Unauthorized, db)).
  { destruct (get_current_user_cases c db) as [[_ (u & Hu & Hn & Hh)]|H]; [|done].
    by destruct (Hno u Hu Hn). }
  destruct r; cbn in Hc; try discriminate; injection Hc as ->;
    cbn [handle]; unfold respond, Depends, bind; by rewrite Hu.
Qed.

(** ** Reads and failures change nothing *)

(** X4: a GET request never changes the database, whatever it answers. *)
Theorem get_changes_nothing (r : Request) (db : Database) :
  method r = "GET" -> snd (handle r db) = db.
Proof.
  intros Hm.
  destruct (handle_effect r db) as [H|[_ [H|[H|[H|H]]]]]; [done|..];
    exfalso.
  - destruct H as (user & -> & _). discriminate.
  - destruct H as (c & todo & -> & _). discriminate.
  - destruct H as (c & i & todo & t & -> & _). discriminate.
  - destruct H as (c & i & t & -> & _). discriminate.
Qed.

(** X5: a request answered with an error status (400 or above) has left the
    database exactly as it was. *)
Theorem error_changes_nothing (r : Request) (db : Database) :
  400 <= status_code (fst (handle r db)) -> snd (handle r db) = db.
Proof.
  intros Hs. destruct (handle_effect r db) as [H|[Hlt _]]; [done|lia].
Qed.


(** ** Listing, finding and removing todos *)

(** X7: the list of a caller is exactly the stored todos the caller owns:
    every one of them is listed, nothing else is, and they come in the
    order in which they are stored. *)
Theorem read_todos_exact (current_user : string) (db : Database) :
  exists l,
    read_todos current_user db = (Return l, db) /\
    (forall r, r ∈ l <-> r ∈ todos db /\ TodoDB.owner r = current_user) /\
    l `sublist_of` todos db.
Proof.
  eexists. split; [reflexivity|]. split.
  - intros r. rewrite list_elem_of_filter. tauto.
  - apply sublist_filter.
Qed.


(** X9: deleting a todo of one's own succeeds and removes that row and no
    other: afterwards the stored todos are the earlier ones without it, in
    the same order, and the users are as before. *)
Theorem delete_removes_one (db : Database) (t : TodoDB.t) :
  wf db -> t ∈ todos db ->
  exists db',
    delete_todo (TodoDB.id t) (TodoDB.owner t) db = (Return (), db') /\
    users db' = users db /\
    (forall r, r ∈ todos db' <-> r ∈ todos db /\ r <> t) /\
    todos db' `sublist_of` todos db.
Proof.
  intros (Hnd & _) Ht. rewrite delete_todo_eq, (query_todo_own db t Hnd Ht).
  eexists. split; [reflexivity|]. cbn [users todos]. split_and!; [done| |].
  - intros r. rewrite list_elem_of_filter. split.
    + intros [Hne Hr]. split; [done|]. by intros ->.
    + intros [Hr Hne]. split; [|done]. intros Hid. apply Hne.
      by eapply key_inj.
  - apply sublist_filter.
Qed.

(** ** Registration, then authentication *)

(** X10: once a user has registered, and whatever requests are served
    afterwards, presenting the username authenticates exactly with the
    passwords whose hash is the hash of the registered password - the
    registered password among them. *)
Theorem register_then_authenticate (user : UserCreate.t) (db db1 : Database)
        (row : UserDB.t) (requests : list Request) (password : string) :
  create_user user db = (Return row, db1) ->
  (get_current_user
     (HTTPBasicCredentials.mk (UserCreate.username user) password)
     (snd (serve requests db1))
     = (Return (UserCreate.username user), snd (serve requests db1)) <->
   get_password_hash password = get_password_hash (UserCreate.password user)) /\
  get_current_user
    (HTTPBasicCredentials.mk (UserCreate.username user) (UserCreate.password user))
    (snd (serve requests db1))
    = (Return (UserCreate.username user), snd (serve requests db1)).
Proof.
  intros (-> & _ & _ & Hfirst)%create_user_Return.
  pose proof (serve_first_user requests db1 _ _ Hfirst) as Hlater.
  rewrite !get_current_user_eq.
  cbn [HTTPBasicCredentials.username HTTPBasicCredentials.password].
  rewrite Hlater. cbn [new_user UserDB.hashed_password UserDB.username].
  split.
  - destruct (verify_password password _) eqn:V.
    + by apply verify_password_true in V.
    + split; [done|]. intros Hh%verify_password_true. congruence.
  - assert (verify_password (UserCreate.password user)
              (get_password_hash (UserCreate.password user)) = true) as ->
      by by apply verify_password_true.
    done.
Qed.

Lemma serve_users (requests : list Request) (db : Database) :
  exists added, users (snd (serve requests db)) = users db ++ added.
Proof.
  revert db. induction requests as [|r rest IH]; intros db.
  - exists []. by rewrite app_nil_r.
  - cbn [serve]. pose proof (handle_users r db) as Hstep.
    destruct (handle r db) as [response db']. destruct (IH db') as [added Hadd].
    destruct (serve rest db') as [responses db'']. cbn [snd] in *.
    rewrite Hadd. destruct Hstep as [->|(user & _ & _ & ->)].
    + by exists added.
    + eexists. by rewrite <- app_assoc.
Qed.

(** X11: no request removes or changes a user: after any sequence of
    requests the users table is the earlier table with rows appended. *)
Theorem users_only_appended (requests : list Request) (db : Database) :
  users db `prefix_of` users (snd (serve requests db)) /\
  forall u, u ∈ users db -> u ∈ users (snd (serve requests db)).
Proof.
  destruct (serve_users requests db) as [added ->]. split.
  - by exists added.
  - intros u Hu. apply elem_of_app. by left.
Qed.

(** ** Requests and the todos of others *)

(** X12: a request leaves every todo alone whose owner is not the username
    presented with it - whatever the route, the path parameter and the body,
    and also when the request presents no credentials at all. *)
Theorem others_todos_untouched (r : Request) (db : Database) (t : TodoDB.t) :
  wf db -> t ∈ todos db ->
  (forall c, credentials_of r = Some c ->
             HTTPBasicCredentials.username c <> TodoDB.owner t) ->
  t ∈ todos (snd (handle r db)).
Proof.
  intros (Hnd & _) Ht Hother.
  destruct (handle_effect r db) as [->|[_ [H|[H|[H|H]]]]]; [done|..].
  - by destruct H as (user & _ & _ & ->).
  - destruct H as (c & todo & _ & _ & ->). cbn [todos]. apply elem_of_app. by left.
  - destruct H as (c & i & todo & t0 & -> & Hq & ->). cbn [todos].
    apply query_todo_found in Hq as (Hin & _ & Ho).
    unfold updated_todos. apply list_elem_of_fmap. exists t. split; [|done].
    rewrite decide_False; [done|]. intros Heq.
    apply (Hother c eq_refl). rewrite <- Ho. f_equal. by eapply key_inj.
  - destruct H as (c & i & t0 & -> & Hq & ->). cbn [todos].
    apply query_todo_found in Hq as (Hin & _ & Ho).
    apply list_elem_of_filter. split; [|done]. intros Heq.
    apply (Hother c eq_refl). rewrite <- Ho. f_equal. by eapply key_inj.
Qed.

(** ** Updating twice *)

Lemma filter_fmap_stable {A : Type} (P : A -> Prop) `{!forall x, Decision (P x)}
      (f : A -> A) (l : list A) :
  (forall x, P (f x) <-> P x) -> filter P (f <$> l) = f <$> filter P l.
Proof.
  intros Hf. induction l as [|x l IH]; [done|].
  rewrite fmap_cons, !filter_cons.
  destruct (decide (P (f x))) as [H1|H1], (decide (P x)) as [H2|H2];
    [by rewrite fmap_cons, IH|destruct (Hf x); tauto|destruct (Hf x); tauto|exact IH].
Qed.

Lemma first_todo_updated (pk : Z) (todo : TodoCreate.t) (db : Database)
      (todo_id : Z) (current_user : string) :
  first_todo todo_id current_user
             {| users := users db; todos := updated_todos pk todo db |}
  = (fun r => if decide (TodoDB.id r = pk)
              then TodoDB.setattrs r (TodoCreate.dict todo) else r)
      <$> first_todo todo_id current_user db.
Proof.
  unfold first_todo, updated_todos. cbn [todos].
  rewrite (filter_fmap_stable (fun r => TodoDB.id r = todo_id)).
  - apply (first_fmap (fun r => TodoDB.owner r = current_user)).
    intros x. case_decide; [|done]. by rewrite setattrs_dict.
  - intros x. case_decide; [|done]. by rewrite setattrs_dict.
Qed.

Lemma updated_todos_twice (pk : Z) (todo : TodoCreate.t) (db : Database) :
  updated_todos pk todo {| users := users db; todos := updated_todos pk todo db |}
  = updated_todos pk todo db.
Proof.
  unfold updated_todos. cbn [todos]. rewrite <- list_fmap_compose.
  apply list_fmap_ext. intros _ r _. unfold compose.
  destruct (decide (TodoDB.id r = pk)) as [Hr|Hr].
  - rewrite decide_True by by rewrite setattrs_dict. by rewrite !setattrs_dict.
  - by rewrite decide_False.
Qed.

(** X13: an update is idempotent: sending the same update again gives the
    same answer and leaves the same database as sending it once. *)
Theorem update_idempotent (todo_id : Z) (todo : TodoCreate.t)
        (current_user : string) (db : Database) :
  update_todo todo_id todo current_user
              (snd (update_todo todo_id todo current_user db))
  = update_todo todo_id todo current_user db.
Proof.
  destruct (first_todo todo_id current_user db) as [t|] eqn:E.
  - destruct (update_todo_found todo_id todo _ db t E) as (row & Hupd & Hrow).
    pose proof E as (Hin & Hid & _)%query_todo_found.
    rewrite Hupd. cbn [snd].
    rewrite (update_todo_eq _ _ _ {| users := _; todos := _ |}).
    rewrite first_todo_updated, E. cbn [fmap option_fmap option_map].
    rewrite decide_True by done. cbn zeta. rewrite setattrs_dict.
    cbn [TodoDB.id users todos]. rewrite updated_todos_twice.
    unfold updated_todos at 1.
    rewrite (first_fmap (fun r => TodoDB.id r = TodoDB.id t)).
    + rewrite update_todo_eq, E in Hupd. cbn zeta in Hupd.
      destruct (head (filter (fun r => TodoDB.id r = TodoDB.id t) (todos db)))
        as [r0|] eqn:E0; [|done].
      cbn in Hupd |- *. apply first_Some in E0 as [_ E0].
      rewrite decide_True by done. cbn [TodoDB.id TodoDB.owner]. exact Hupd.
    + intros x. case_decide; [|done]. by rewrite setattrs_dict.
  - assert (Hno : update_todo todo_id todo current_user db = (Raise NotFound, db))
      by (rewrite update_todo_eq, E; reflexivity).
    by rewrite Hno.
Qed.

(** ** Who am I *)

(** X14: GET /users/me/ answers 200 with exactly the presented username
    when the credentials authenticate, and 401 otherwise; the answer never
    carries the stored digest. *)
Theorem users_me_echo (c : HTTPBasicCredentials.t) (db : Database) :
  (get_current_user c db = (Return (HTTPBasicCredentials.username c), db) /\
   handle (GET_users_me c) db
     = ({| status_code := HTTP_200_OK;
           content := JUser (User.mk (HTTPBasicCredentials.username c)) |}, db)) \/
  (get_current_user c db = (Raise Unauthorized, db) /\
   handle (GET_users_me c) db
     = ({| status_code := HTTP_401_UNAUTHORIZED;
           content := JDetail "Incorrect username or password" |}, db)).
Proof.
  cbn [handle]. unfold respond, Depends, bind.
  destruct (get_current_user_cases c db) as [[-> _]| ->]; [by left|by right].
Qed.

(** ** Creating, then listing *)

(** X15: creating a todo appends it to the list of the caller and changes
    the list of no other user. *)
Theorem create_then_list (todo : TodoCreate.t) (current_user : string)
        (db : Database) :
  exists row db',
    create_todo todo current_user db = (Return row, db') /\
    forall user l,
      read_todos user db = (Return l, db) ->
      read_todos user db'
        = (Return (if decide (user = current_user) then l ++ [row] else l), db').
Proof.
  eexists _, _. split; [apply create_todo_eq|].
  intros user l [= <-]. unfold read_todos, query_todos. cbn [todos].
  rewrite filter_app. f_equal. f_equal. case_decide as Hu.
  - by rewrite filter_cons_True, filter_nil by done.
  - rewrite filter_cons_False, filter_nil, app_nil_r; [done|].
    cbn. congruence.
Qed.

(** ** The shape of a digest *)

Lemma compress_length (h block : list Z) :
  length h = 8%nat -> length (SHA256.compress h block) = 8%nat.
Proof.
  intros Hh. unfold SHA256.compress.
  rewrite List.length_map, List.length_combine, Hh. reflexivity.
Qed.

Lemma blocks_length (n : nat) (h bytes : list Z) :
  length h = 8%nat -> length (SHA256.blocks n h bytes) = 8%nat.
Proof.
  revert h bytes. induction n as [|n IH]; intros h bytes Hh; [exact Hh|].
  cbn [SHA256.blocks]. apply IH. by apply compress_length.
Qed.

Lemma be_bytes_range (n : nat) (x : Z) :
  Forall (fun b => 0 <= b < 256) (SHA256.be_bytes n x).
Proof.
  induction n as [|n IH]; cbn [SHA256.be_bytes]; constructor; [|exact IH].
  apply Z.mod_pos_bound. lia.
Qed.

Lemma digest_length (msg : list Z) : length (SHA256.digest msg) = 32%nat.
Proof.
  unfold SHA256.digest. cbn zeta.
  pose proof (blocks_length (length (SHA256.pad msg) / 64) SHA256.H0
                            (SHA256.pad msg) eq_refl) as Hlen.
  destruct (SHA256.blocks _ _ _) as [|a [|b [|c [|d [|e [|f [|g [|h [|? ?]]]]]]]]];
    try discriminate.
  reflexivity.
Qed.

Lemma digest_range (msg : list Z) :
  Forall (fun b => 0 <= b < 256) (SHA256.digest msg).
Proof.
  unfold SHA256.digest. cbn zeta.
  induction (SHA256.blocks _ _ _) as [|w ws IH]; [constructor|].
  cbn [List.flat_map]. apply Forall_app. split; [apply be_bytes_range|exact IH].
Qed.

Lemma hex_length (bytes : list Z) :
  String.length (SHA256.hex bytes) = (2 * length bytes)%nat.
Proof.
  induction bytes as [|b bytes IH]; [reflexivity|].
  unfold SHA256.hex in *. cbn [List.fold_right String.length length].
  rewrite IH. lia.
Qed.

Lemma hex_digit_alphabet (d : Z) : 0 <= d < 16 -> SHA256.hex_digit d ∈ hex_alphabet.
Proof.
  intros Hd.
  assert (d = 0 \/ d = 1 \/ d = 2 \/ d = 3 \/ d = 4 \/ d = 5 \/ d = 6 \/ d = 7 \/
          d = 8 \/ d = 9 \/ d = 10 \/ d = 11 \/ d = 12 \/ d = 13 \/ d = 14 \/
          d = 15) as Hcases by lia.
  repeat (destruct Hcases as [->|Hcases]; [vm_compute; repeat constructor|]).
  subst d. vm_compute. repeat constructor.
Qed.

Lemma hex_alphabet_only (bytes : list Z) :
  Forall (fun b => 0 <= b < 256) bytes ->
  Forall (fun c => c ∈ hex_alphabet) (list_ascii_of_string (SHA256.hex bytes)).
Proof.
  induction 1 as [|b bytes Hb _ IH]; [constructor|].
  unfold SHA256.hex in *. cbn [List.fold_right list_ascii_of_string].
  constructor; [|constructor; [|exact IH]]; apply hex_digit_alphabet.
  - split; [apply Z.div_pos; lia|apply Z.div_lt_upper_bound; lia].
  - apply Z.mod_pos_bound. lia.
Qed.

(** X16: whatever the password, its digest is a string of exactly 64
    characters, all of them lowercase hexadecimal digits; so a password of
    any other length is never stored as it was sent. *)
Theorem digest_is_64_hex (password : string) :
  String.length (get_password_hash password) = 64%nat /\
  Forall (fun c => c ∈ hex_alphabet)
         (list_ascii_of_string (get_password_hash password)) /\
  (String.length password <> 64%nat -> get_password_hash password <> password).
Proof.
  assert (Hlen : String.length (get_password_hash password) = 64%nat).
  { unfold get_password_hash, sha256_hexdigest.
    by rewrite hex_length, digest_length. }
  split_and!; [exact Hlen| |].
  - unfold get_password_hash, sha256_hexdigest.
    apply hex_alphabet_only, digest_range.
  - intros Hne Heq. rewrite Heq in Hlen. done.
Qed.

(** ** Creating, then deleting *)

Lemma filter_all {A : Type} (P : A -> Prop) `{!forall x, Decision (P x)} (l : list A) :
  (forall x, x ∈ l -> P x) -> filter P l = l.
Proof.
  induction l as [|x l IH]; intros Hall; [done|].
  rewrite filter_cons_True by (apply Hall; by left).
  f_equal. apply IH. intros y Hy. apply Hall. by right.
Qed.

(** X17: deleting the todo that was just created, by the id that the
    creation returned, succeeds and gives back exactly the database from
    before the creation. *)
Theorem create_then_delete (todo : TodoCreate.t) (current_user : string)
        (db : Database) :
  exists row db',
    create_todo todo current_user db = (Return row, db') /\
    delete_todo (TodoDB.id row) current_user db' = (Return (), db).
Proof.
  eexists _, _. split; [apply create_todo_eq|].
  rewrite delete_todo_eq. unfold first_todo. cbn [todos users].
  rewrite query_new_todo. rewrite filter_app, filter_cons_False, filter_nil, app_nil_r
    by (intros H; by apply H).
  rewrite filter_all by (intros x Hx; by apply todo_id_fresh).
  by destruct db.
Qed.

(** ** The further properties on the concrete run *)

Lemma reachable_keys_unique_witness :
  NoDup (TodoDB.id <$> todos example_db) /\
  NoDup (UserDB.id <$> users example_db) /\
  NoDup (UserDB.username <$> users example_db).
Proof. exact (reachable_keys_unique example_db example_db_reachable). Defined.

Lemma reachable_owners_registered_witness :
  exists u, u ∈ users example_db /\ UserDB.username u = "alice".
Proof.
  exact (reachable_owners_registered example_db buy_milk
           example_db_reachable buy_milk_stored).
Defined.

Lemma refused_credentials_witness :
  handle (GET_todos (HTTPBasicCredentials.mk "alice" "wrong")) example_db
    = ({| status_code := 401;
          content := JDetail "Incorrect username or password" |}, example_db).
Proof.
  apply (refused_credentials (GET_todos (HTTPBasicCredentials.mk "alice" "wrong"))
           (HTTPBasicCredentials.mk "alice" "wrong") example_db).
  - reflexivity.
  - intros u Hu Hname Hhash. vm_compute in Hu.
    apply elem_of_cons in Hu as [->|Hu]; [vm_compute in Hhash; discriminate|].
    apply elem_of_cons in Hu as [->|Hu]; [discriminate|].
    by apply elem_of_nil in Hu.
Defined.

Lemma get_changes_nothing_witness :
  snd (handle (GET_todos alice) example_db) = example_db.
Proof. exact (get_changes_nothing (GET_todos alice) example_db eq_refl). Defined.

Lemma error_changes_nothing_witness :
  snd (handle (DELETE_todo bob 1) example_db) = example_db.
Proof.
  apply (error_changes_nothing (DELETE_todo bob 1) example_db).
  vm_compute. discriminate.
Defined.

Lemma delete_removes_one_witness :
  exists db',
    delete_todo 1 "alice" example_db = (Return (), db') /\
    users db' = users example_db /\
    (forall r, r ∈ todos db' <-> r ∈ todos example_db /\ r <> buy_milk) /\
    todos db' `sublist_of` todos example_db.
Proof.
  exact (delete_removes_one example_db buy_milk example_db_wf buy_milk_stored).
Defined.

Lemma register_then_authenticate_witness :
  get_current_user (HTTPBasicCredentials.mk "alice" "pw1") example_db
    = (Return "alice", example_db).
Proof.
  refine (proj2 (register_then_authenticate
                   (UserCreate.mk "alice" "pw1") startup
                   (snd (create_user (UserCreate.mk "alice" "pw1") startup))
                   (new_user (UserCreate.mk "alice" "pw1") startup)
                   (tail example_requests) "pw1" _)).
  vm_compute. reflexivity.
Defined.

Lemma others_todos_untouched_witness :
  buy_milk ∈ todos (snd (handle (PUT_todo bob 1 (TodoCreate.mk "taken" true))
                                example_db)).
Proof.
  apply (others_todos_untouched _ example_db buy_milk example_db_wf buy_milk_stored).
  intros c [= <-]. discriminate.
Defined.
